(** * The keycloakify command-line dispatcher ([src/bin/main.ts])

    A shallow embedding of the dispatcher script: the option registry
    [optionsKeys], the [skip] predicate shared by every task, the
    [start-keycloak] handler with its [validate_keycloak_version] block, the
    other handlers, the top-level [onException] sink and the fallback router
    at the end of the script.

    The script is effectful: it pushes to a module-level array, writes to the
    two standard streams, spawns a child and exits the process.  These effects
    are threaded through a small monad [proc] over a [world] that holds the
    array and an ordered trace of the observable events.

    Strings are [Stdlib] strings; a character stands for one code unit of the
    JavaScript string, so that [String.length] is the [.length] of the source
    for the tokens a command line is made of. *)

From Stdlib Require Import String Ascii List ZArith Lia Bool DecimalString.
Import ListNotations.

Local Open Scope string_scope.
Local Open Scope Z_scope.

(** ** Values that do not depend on the collaborators *)

(** The [stdio] setting of [child_process.spawnSync]; the script uses
    ["inherit"] only, ["pipe"] is Node's default. *)
Inductive stdio := Inherit | Pipe.

(** The ten subcommands, in the order the script registers them. *)
Inductive command_name :=
| build
| start_keycloak
| eject_page
| add_story
| initialize_email_theme
| initialize_account_theme
| copy_keycloak_resources_to_public
| update_kc_gen
| postinstall
| eject_file.

(** The [name] field of [program.command]. *)
Definition cli_name (c : command_name) : string :=
  match c with
  | build => "build"
  | start_keycloak => "start-keycloak"
  | eject_page => "eject-page"
  | add_story => "add-story"
  | initialize_email_theme => "initialize-email-theme"
  | initialize_account_theme => "initialize-account-theme"
  | copy_keycloak_resources_to_public => "copy-keycloak-resources-to-public"
  | update_kc_gen => "update-kc-gen"
  | postinstall => "postinstall"
  | eject_file => "eject-file"
  end.

(** The module a handler loads with [await import(...)]. *)
Definition module_path (c : command_name) : string :=
  match c with
  | build => "./keycloakify"
  | start_keycloak => "./start-keycloak"
  | eject_page => "./eject-page"
  | add_story => "./add-story"
  | initialize_email_theme => "./initialize-email-theme"
  | initialize_account_theme => "./initialize-account-theme"
  | copy_keycloak_resources_to_public => "./copy-keycloak-resources-to-public"
  | update_kc_gen => "./update-kc-gen"
  | postinstall => "./postinstall"
  | eject_file => "./eject-file"
  end.

Definition catalog : list command_name :=
  [build; start_keycloak; eject_page; add_story; initialize_email_theme;
   initialize_account_theme; copy_keycloak_resources_to_public; update_kc_gen;
   postinstall; eject_file].

(** An option as given to [.option({ key, name, ... })]: [key] addresses the
    parsed value, [names] are the flag tokens ([{long, short}] or one name),
    in the order the [name] thunk pushes them. *)
Record option_def := { key : string; names : list string }.

(** [program.option] (lines 34-50): available on every command. *)
Definition program_options : list option_def :=
  [ {| key := "projectDirPath"; names := ["project"; "p"] |} ].

(** The [.option] calls chained on each [program.command]. *)
Definition command_options (c : command_name) : list option_def :=
  match c with
  | start_keycloak =>
      [ {| key := "port"; names := ["port"] |};
        {| key := "keycloakVersion"; names := ["keycloak-version"] |};
        {| key := "realmJsonFilePath"; names := ["import"] |} ]
  | eject_file => [ {| key := "file"; names := ["file"] |} ]
  | _ => []
  end.

(** [optionsKeys.includes(key)]. *)
Definition includes (ks : list string) (k : string) : bool :=
  existsb (String.eqb k) ks.

(** [s.startsWith(p)]. *)
Definition startsWith (s p : string) : bool := String.prefix p s.

(** [[a, b].join(sep)]. *)
Definition join (sep : string) (l : list string) : string := String.concat sep l.

(** The condition of the fallback block (lines 328-331) on
    [rest = process.argv.slice(2)]. *)
Definition fallback_condition (rest : list string) : bool :=
  match rest with
  | [] => true
  | rest0 :: _ =>
      startsWith rest0 "-" && negb (rest0 =? "--help")%string
                           && negb (rest0 =? "-h")%string
  end.

(** [const [, , ...rest] = process.argv]. *)
Definition rest_of (argv : list string) : list string := skipn 2 argv.

(** The option names the framework answers by itself, its own [--help]/[-h]
    and [--version]/[-v]: a bag that holds one of them is not given to the
    task. *)
Definition framework_keys : list string := ["help"; "h"; "version"; "v"].

Definition answered_by_framework (keys : list string) : bool :=
  existsb (includes framework_keys) keys.

(** The text of the two diagnostics. *)
Definition unrecognized_option_message (unrecognizedOptionKey : string) : string :=
  "keycloakify: Unrecognized option: "
  ++ (if (Z.of_nat (String.length unrecognizedOptionKey) =? 1) then "-" else "--")
  ++ unrecognizedOptionKey.

Definition invalid_version_message (shown : string) : string :=
  join " " [ "Invalid Keycloak version: " ++ shown;
             "It should be a valid semver version example: 26.0.4" ].

(** ** Stand-ins for the collaborators, for running the script on examples *)

Module SemVerModel.

(** The parts of a version string. *)
Record version := {
  major : N;
  minor : N;
  patch : N;
  prerelease : option string;
  buildmetadata : option string
}.

Definition is_digit (c : ascii) : bool :=
  ((48 <=? nat_of_ascii c) && (nat_of_ascii c <=? 57))%nat.

(** [s] cut at the first [sep]: what is before it and, when there is one,
    what is after it. *)
Fixpoint cut (sep : ascii) (s : string) : string * option string :=
  match s with
  | EmptyString => (EmptyString, None)
  | String c s' =>
      if Ascii.eqb c sep then (EmptyString, Some s')
      else let (a, b) := cut sep s' in (String c a, b)
  end.

Fixpoint digits (acc : N) (s : string) : option N :=
  match s with
  | EmptyString => Some acc
  | String c s' =>
      if is_digit c then digits (10 * acc + (N_of_ascii c - 48))%N s' else None
  end.

(** A non-empty run of decimal digits. *)
Definition numeric (s : string) : option N :=
  match s with
  | EmptyString => None
  | _ => digits 0%N s
  end.

(** An optional part, when present, is not empty. *)
Definition well_formed_part (p : option string) : bool :=
  match p with
  | Some EmptyString => false
  | _ => true
  end.

(** Modelled from the spec: [SemVer.parse] of [./tools/SemVer] is not among
    the sources.  The spec gives it as [parse(input: string) -> ParsedVersion],
    failing "when the input does not match the semantic-versioning grammar
    (major.minor.patch, optional pre-release/build metadata)"; [None] is the
    failure. *)
Definition parse (input : string) : option version :=
  let (front, meta) := cut "+" input in
  let (core, pre) := cut "-" front in
  let (ma, after_major) := cut "." core in
  match after_major with
  | None => None
  | Some r =>
      let (mi, after_minor) := cut "." r in
      match after_minor with
      | None => None
      | Some pa =>
          match numeric ma, numeric mi, numeric pa with
          | Some a, Some b, Some c =>
              if well_formed_part pre && well_formed_part meta
              then Some {| major := a; minor := b; patch := c;
                           prerelease := pre; buildmetadata := meta |}
              else None
          | _, _, _ => None
          end
      end
  end.

End SemVerModel.

(** A red rendering in the manner of [chalk.red]: the text between the
    escape sequences that switch the colour on and off. *)
Definition ansi_red (s : string) : string :=
  String (ascii_of_nat 27) "[31m" ++ s ++ String (ascii_of_nat 27) "[39m".

(** Whole numbers in decimal, as a template literal shows them. *)
Definition decimal (z : Z) : string := NilZero.string_of_int (Z.to_int z).

Section Dispatcher.

Set Default Proof Using "Type".

(** *** Collaborators outside this file

    The language runtime, the imported packages and the delegated handlers
    are taken as given. *)

(** JavaScript numbers and their conversion in a template literal. *)
Variable number : Type.
Variable number_to_string : number -> string.

(** Values that can be thrown, and the values of an untyped options bag. *)
Variable error : Type.
Variable unknown : Type.

(** [SemVer.parse] of [./tools/SemVer]: [None] when it throws. *)
Variable parsedVersion : Type.
Variable SemVer_parse : string -> option parsedVersion.

(** [chalk.red]. *)
Variable chalk_red : string -> string.

(** [getBuildContext({ projectDirPath })] of [./shared/buildContext]: it
    returns a context or throws. *)
Variable buildContext : Type.
Variable getBuildContext : option string -> error + buildContext.

(** A supplied [keycloakVersion]: [string | number].  The option itself is
    [string | number | undefined], an [option version_value] with [None] for
    [undefined]. *)
Inductive version_value :=
| VNumber (n : number)
| VString (s : string).

(** The [cliCommandOptions] a handler hands to its command. *)
Inductive cliCommandOptions :=
| NoCliCommandOptions
| StartKeycloakOptions (keycloakVersion : option version_value) (port : option number)
                       (realmJsonFilePath : option string)
| EjectFileOptions (file : string).

(** The [command] exported by a handler module: the promise it returns
    resolves ([None]) or rejects with an error. *)
Variable command_outcome :
  string -> buildContext -> cliCommandOptions -> option error.

(** The [status] field of what [child_process.spawnSync] returns:
    [number | null]. *)
Variable spawn_status : string -> list string -> option Z.

(** *** The world and the monad *)

Inductive event :=
| ConsoleLog (line : string)
| ConsoleError (line : string)
| ConsoleErrorValue (e : error)
| SemVerParse (versionStr : string)
| Import (path : string)
| GetBuildContext (projectDirPath : option string)
| Command (path : string) (bc : buildContext) (o : cliCommandOptions)
| SpawnSync (cmd : string) (args : list string) (io : stdio)
| FrameworkAnswer (keys : list string).

Record world := { optionsKeys : list string; trace : list event }.

(** How a computation ends: it returns, the process exits, or a value is
    thrown (a rejected promise that is awaited throws as well). *)
Inductive outcome (A : Type) :=
| Done (a : A)
| Exited (code : Z)
| Thrown (e : error).
Arguments Done {A} a.
Arguments Exited {A} code.
Arguments Thrown {A} e.

Definition proc (A : Type) : Type := world -> outcome A * world.

Definition ret {A} (a : A) : proc A := fun w => (Done a, w).

Definition bind {A B} (m : proc A) (k : A -> proc B) : proc B :=
  fun w =>
    match m w with
    | (Done a, w') => k a w'
    | (Exited code, w') => (Exited code, w')
    | (Thrown e, w') => (Thrown e, w')
    end.

Notation "x <- m ;; k" := (bind m (fun x => k))
  (at level 61, m at next level, right associativity).
Notation "m ;; k" := (bind m (fun _ => k))
  (at level 61, right associativity).

(** [try { m } catch (e) { h(e) }]. *)
Definition try_catch {A} (m : proc A) (h : error -> proc A) : proc A :=
  fun w =>
    match m w with
    | (Thrown e, w') => h e w'
    | r => r
    end.

Definition emit (ev : event) : proc unit :=
  fun w => (Done tt, {| optionsKeys := optionsKeys w; trace := trace w ++ [ev] |}).

Definition throw {A} (e : error) : proc A := fun w => (Thrown e, w).

(** [process.exit(code)]: nothing after it runs. *)
Definition process_exit {A} (code : Z) : proc A := fun w => (Exited code, w).

(** [optionsKeys.push(...ks)]. *)
Definition push (ks : list string) : proc unit :=
  fun w => (Done tt, {| optionsKeys := optionsKeys w ++ ks; trace := trace w |}).

(** Reading the module-level array. *)
Definition read_optionsKeys : proc (list string) :=
  fun w => (Done (optionsKeys w), w).

Definition console_log (line : string) : proc unit := emit (ConsoleLog line).
Definition console_error (line : string) : proc unit := emit (ConsoleError line).

Fixpoint for_each {A} (f : A -> proc unit) (l : list A) : proc unit :=
  match l with
  | [] => ret tt
  | a :: l' => f a ;; for_each f l'
  end.

(** *** Catalog construction (lines 32-50, 93-134, 298-311)

    Each option's [name] is computed by a thunk that pushes the flag names
    to [optionsKeys] while the option is being declared. *)

Definition register_option (o : option_def) : proc unit := push (names o).

Definition register_command (c : command_name) : proc unit :=
  for_each register_option (command_options c).

Definition construct_catalog : proc unit :=
  for_each register_option program_options ;;
  for_each register_command catalog.

(** The world in which the script starts: [const optionsKeys = []]. *)
Definition initial_world : world := {| optionsKeys := []; trace := [] |}.

(** *** The skip predicate (lines 52-67) *)

(** [argv] as a task receives it: an options bag, its entries in the order
    [Object.keys] yields them. *)
Record task_argv := { options : list (string * unknown) }.

Definition Object_keys (o : list (string * unknown)) : list string := map fst o.

Definition skip (argv : task_argv) : proc bool :=
  ks <- read_optionsKeys ;;
  let unrecognizedOptionKey :=
    find (fun key => negb (includes ks key)) (Object_keys (options argv)) in
  match unrecognizedOptionKey with
  | Some k => console_error (unrecognized_option_message k) ;; process_exit 1
  | None => ret tt
  end ;;
  ret false.

(** *** The handlers *)

(** The option values a handler destructures from its context. *)
Record context := {
  projectDirPath : option string;
  port : option number;
  keycloakVersion : option version_value;
  realmJsonFilePath : option string;
  file : string
}.

(** [await import(path)]: the modules belong to this package, loading them
    is an event that succeeds. *)
Definition dynamic_import (path : string) : proc unit := emit (Import path).

(** [await command({ buildContext: getBuildContext({ projectDirPath }), cliCommandOptions })]:
    the argument is evaluated first, then the command runs. *)
Definition call_command (path : string) (pdp : option string)
           (o : cliCommandOptions) : proc unit :=
  emit (GetBuildContext pdp) ;;
  match getBuildContext pdp with
  | inl e => throw e
  | inr bc =>
      emit (Command path bc o) ;;
      match command_outcome path bc o with
      | Some e => throw e
      | None => ret tt
      end
  end.

(** [SemVer.parse(s)] inside [try { ... } catch { return false; }]. *)
Definition semver_parse (s : string) : proc (option parsedVersion) :=
  emit (SemVerParse s) ;; ret (SemVer_parse s).

(** The immediately-invoked arrow function of lines 145-157, entered with a
    [keycloakVersion] that is not [undefined].  Its result is [false] or,
    through the bare [return;], [undefined]: [Some false] and [None] here. *)
Definition isValidVersion (v : version_value) : proc (option bool) :=
  match v with
  | VNumber _ => ret (Some false)
  | VString s =>
      r <- semver_parse s ;;
      match r with
      | None => ret (Some false)
      | Some _ => ret None
      end
  end.

(** The truthiness [if (isValidVersion)] tests. *)
Definition truthy (b : option bool) : bool :=
  match b with
  | Some true => true
  | _ => false
  end.

(** [`${keycloakVersion}`]. *)
Definition version_to_string (v : version_value) : string :=
  match v with
  | VNumber n => number_to_string n
  | VString s => s
  end.

(** The labelled block of lines 140-173; [break] leaves it with [ret tt]. *)
Definition validate_keycloak_version (keycloakVersion : option version_value)
  : proc unit :=
  match keycloakVersion with
  | None => ret tt
  | Some v =>
      ok <- isValidVersion v ;;
      if truthy ok then ret tt
      else
        console_log (chalk_red (invalid_version_message (version_to_string v))) ;;
        process_exit 1
  end.

Definition start_keycloak_handler (ctx : context) : proc unit :=
  dynamic_import (module_path start_keycloak) ;;
  validate_keycloak_version (keycloakVersion ctx) ;;
  call_command (module_path start_keycloak) (projectDirPath ctx)
    (StartKeycloakOptions (keycloakVersion ctx) (port ctx) (realmJsonFilePath ctx)).

Definition eject_file_handler (ctx : context) : proc unit :=
  dynamic_import (module_path eject_file) ;;
  call_command (module_path eject_file) (projectDirPath ctx)
    (EjectFileOptions (file ctx)).

(** The eight handlers that only build the context and run the command. *)
Definition plain_handler (c : command_name) (ctx : context) : proc unit :=
  dynamic_import (module_path c) ;;
  call_command (module_path c) (projectDirPath ctx) NoCliCommandOptions.

Definition handler (c : command_name) (ctx : context) : proc unit :=
  match c with
  | start_keycloak => start_keycloak_handler ctx
  | eject_file => eject_file_handler ctx
  | _ => plain_handler c ctx
  end.

(** *** The framework around a task, and the exception sink (lines 24-29) *)

Definition onException (e : error) : proc unit :=
  emit (ConsoleErrorValue e) ;; process_exit 1.

(** What the invocation selected: the command, the bag given to [skip] and
    the values given to the handler. *)
Record invocation := {
  selected : command_name;
  argv : task_argv;
  ctx_of : context
}.

(** The task of a command with the sink attached: [skip] first; when it
    answers [true] the handler is left out; what the handler throws goes to
    [onException].  This is what [execute] below comes to for a bag without a
    key of the framework and a handler that throws [Error] instances only
    (lemma [execute_run_task]). *)
Definition run_task (inv : invocation) : proc unit :=
  skipped <- skip (argv inv) ;;
  if skipped : bool then ret tt
  else try_catch (handler (selected inv) (ctx_of inv)) onException.

(** [error instanceof Error], the test the framework makes on what a handler
    throws. *)
Variable is_Error : error -> bool.

(** What the framework does with a value thrown by a handler (the rejection
    of the promise it returned): an [Error] instance is given to
    [onException]; then, and at once for any other value, the process exits
    with code 1. *)
Definition unhandled_rejection (e : error) : proc unit :=
  (if is_Error e then onException e else ret tt) ;;
  process_exit 1.

(** Modelled from the spec: the framework that runs the selected command
    (the package behind [termost(...)]) is not among the sources.  The spec
    gives the order: "applies the Skip Predicate, and - if not skipped -
    resolves and invokes exactly one command's handler", and "uncaught errors
    during handler execution propagate to a single top-level exception sink".
    Two things it leaves to the framework are written out here.  A bag that
    holds one of [framework_keys] is answered by the framework itself (it
    prints its help or the version): the task is not run, [skip] is not
    called, and the script ends normally.  And only an [Error] instance
    reaches [onException] ([unhandled_rejection]). *)
Definition execute (inv : invocation) : proc unit :=
  let keys := Object_keys (options (argv inv)) in
  if answered_by_framework keys then emit (FrameworkAnswer keys)
  else
    skipped <- skip (argv inv) ;;
    if skipped : bool then ret tt
    else try_catch (handler (selected inv) (ctx_of inv)) unhandled_rejection.

(** *** The fallback router (lines 324-342) *)

Definition spawnSync (cmd : string) (args : list string) (io : stdio)
  : proc (option Z) :=
  emit (SpawnSync cmd args io) ;; ret (spawn_status cmd args).

(** [status ?? 1]. *)
Definition status_or_1 (status : option Z) : Z :=
  match status with
  | Some s => s
  | None => 1
  end.

Definition fallback_router (process_argv : list string) : proc unit :=
  let rest := rest_of process_argv in
  if fallback_condition rest then
    status <- spawnSync "npx" ("keycloakify" :: "build" :: rest) Inherit ;;
    process_exit (status_or_1 status)
  else ret tt.

(** *** The script

    The catalog is built and the fallback block runs while the module is
    evaluated; the framework parses and runs the selected task afterwards. *)
Definition dispatch (process_argv : list string) (inv : invocation) : proc unit :=
  fallback_router process_argv ;;
  execute inv.

Definition main (process_argv : list string) (inv : invocation) : proc unit :=
  construct_catalog ;;
  dispatch process_argv inv.

(** ** Observations on a trace *)

(** What was written to standard output ([console.log]). *)
Fixpoint stdout_of (t : list event) : list string :=
  match t with
  | [] => []
  | ConsoleLog line :: t' => line :: stdout_of t'
  | _ :: t' => stdout_of t'
  end.

(** What was written to standard error ([console.error]), one entry per call. *)
Fixpoint stderr_count (t : list event) : nat :=
  match t with
  | [] => 0
  | ConsoleError _ :: t' => S (stderr_count t')
  | ConsoleErrorValue _ :: t' => S (stderr_count t')
  | _ :: t' => stderr_count t'
  end.

Definition is_command (ev : event) : bool :=
  match ev with Command _ _ _ => true | _ => false end.


Definition is_parse (ev : event) : bool :=
  match ev with SemVerParse _ => true | _ => false end.

(** How many events of a kind a trace holds. *)
Definition count (p : event -> bool) (t : list event) : nat :=
  List.length (filter p t).

(** The [SemVer.parse] calls the validation block makes for a supplied
    version. *)
Definition parse_events (v : version_value) : list event :=
  match v with
  | VNumber _ => []
  | VString s => [SemVerParse s]
  end.

(** The world after some more events. *)
Definition after (w : world) (evs : list event) : world :=
  {| optionsKeys := optionsKeys w; trace := trace w ++ evs |}.

(** [k] is the first of [keys] that the registry [ks] does not hold. *)
Definition first_unrecognized (ks keys : list string) (k : string) : Prop :=
  exists pre post,
    keys = (pre ++ k :: post)%list /\ Forall (fun x => In x ks) pre /\ ~ In k ks.

(** A flag token is registered when the program or some command of the
    catalog declares it. *)
Definition registered (token : string) : Prop :=
  In token (flat_map names program_options) \/
  exists c, In c catalog /\ In token (flat_map names (command_options c)).

(** A computation that leaves [optionsKeys] as it found it. *)
Definition preserves_registry {A} (m : proc A) : Prop :=
  forall w, optionsKeys (snd (m w)) = optionsKeys w.

(** The registry once the catalog is built. *)
Definition registry : list string :=
  optionsKeys (snd (construct_catalog initial_world)).

(** The modules loaded with [await import(...)], in order. *)
Fixpoint imports_of (t : list event) : list string :=
  match t with
  | [] => []
  | Import path :: t' => path :: imports_of t'
  | _ :: t' => imports_of t'
  end.

(** Two arrays that hold the same tokens, whatever their order and
    repetitions. *)
Definition same_tokens (ks ks' : list string) : Prop :=
  forall k, In k ks <-> In k ks'.

(** ** Basic facts *)

Lemma after_nil w : after w [] = w.
Proof. destruct w; unfold after; simpl; now rewrite app_nil_r. Qed.

Lemma includes_In ks k : includes ks k = true <-> In k ks.
Proof.
  unfold includes. rewrite existsb_exists. split.
  - intros (x & Hin & Heq). apply String.eqb_eq in Heq. now subst.
  - intros Hin. exists k. split; [assumption | apply String.eqb_refl].
Qed.

Lemma includes_not_In ks k : includes ks k = false <-> ~ In k ks.
Proof.
  rewrite <- includes_In. destruct (includes ks k); split; congruence.
Qed.

Lemma find_first_unrecognized ks keys k :
  first_unrecognized ks keys k ->
  find (fun key => negb (includes ks key)) keys = Some k.
Proof.
  intros (pre & post & -> & Hpre & Hk).
  induction pre as [|x pre IH]; simpl.
  - apply includes_not_In in Hk. now rewrite Hk.
  - inversion Hpre as [|? ? Hx Hrest]; subst.
    apply includes_In in Hx. rewrite Hx. simpl. now apply IH.
Qed.

Lemma find_none_all_recognized ks keys :
  (forall x, In x keys -> In x ks) ->
  find (fun key => negb (includes ks key)) keys = None.
Proof.
  induction keys as [|x keys IH]; simpl; intros H; [reflexivity|].
  assert (Hx : includes ks x = true) by (apply includes_In; auto).
  rewrite Hx. simpl. apply IH. auto.
Qed.

Lemma find_some_first_unrecognized ks keys k :
  find (fun key => negb (includes ks key)) keys = Some k ->
  first_unrecognized ks keys k.
Proof.
  induction keys as [|x keys IH]; simpl; [discriminate|].
  destruct (includes ks x) eqn:Hx; simpl.
  - intros H. destruct (IH H) as (pre & post & -> & Hpre & Hk).
    exists (x :: pre), post. repeat split; auto.
    constructor; [now apply includes_In | assumption].
  - intros [= ->]. exists [], keys. repeat split; auto.
    now apply includes_not_In.
Qed.

Lemma exists_first_unrecognized ks keys :
  (exists x, In x keys /\ ~ In x ks) ->
  exists k, first_unrecognized ks keys k.
Proof.
  intros (x & Hin & Hx).
  destruct (find (fun key => negb (includes ks key)) keys) as [k|] eqn:Hf.
  - exists k. now apply find_some_first_unrecognized.
  - exfalso. apply (find_none _ _ Hf) in Hin.
    apply negb_false_iff, includes_In in Hin. contradiction.
Qed.

(** [skip] computed: the two ways it can end. *)
Lemma skip_unrecognized argv w k :
  first_unrecognized (optionsKeys w) (Object_keys (options argv)) k ->
  skip argv w =
    (Exited 1, after w [ConsoleError (unrecognized_option_message k)]).
Proof.
  intros H. apply find_first_unrecognized in H.
  unfold skip, bind, read_optionsKeys. simpl. rewrite H. reflexivity.
Qed.

Lemma skip_recognized argv w :
  (forall x, In x (Object_keys (options argv)) -> In x (optionsKeys w)) ->
  skip argv w = (Done false, w).
Proof.
  intros H. apply find_none_all_recognized in H.
  unfold skip, bind, read_optionsKeys. simpl. rewrite H. reflexivity.
Qed.

(** ** The registry *)

Lemma registry_eq :
  registry = ["project"; "p"; "port"; "keycloak-version"; "import"; "file"].
Proof. reflexivity. Qed.

Lemma registry_registered token : In token registry <-> registered token.
Proof.
  rewrite registry_eq. unfold registered. split.
  - simpl. intros [<-|[<-|[<-|[<-|[<-|[<-|[]]]]]]];
      first [ left; simpl; solve [auto 8]
            | right; exists start_keycloak; simpl; solve [auto 12]
            | right; exists eject_file; simpl; solve [auto 12] ].
  - intros [H|(c & _ & H)].
    + simpl in H. simpl.
      repeat (destruct H as [H|H]; [subst; solve [auto 10]|]). contradiction.
    + destruct c; simpl in H;
        repeat (destruct H as [H|H]; [subst; simpl; solve [auto 10]|]);
        contradiction.
Qed.

Lemma preserves_ret {A} (a : A) : preserves_registry (ret a).
Proof. intros w. reflexivity. Qed.

Lemma preserves_emit ev : preserves_registry (emit ev).
Proof. intros w. reflexivity. Qed.

Lemma preserves_throw {A} e : preserves_registry (@throw A e).
Proof. intros w. reflexivity. Qed.

Lemma preserves_exit {A} code : preserves_registry (@process_exit A code).
Proof. intros w. reflexivity. Qed.

Lemma preserves_read : preserves_registry read_optionsKeys.
Proof. intros w. reflexivity. Qed.

Lemma preserves_bind {A B} (m : proc A) (k : A -> proc B) :
  preserves_registry m -> (forall a, preserves_registry (k a)) ->
  preserves_registry (bind m k).
Proof.
  intros Hm Hk w. unfold bind. specialize (Hm w).
  destruct (m w) as [[a|code|e] w']; simpl in *; try assumption.
  now rewrite Hk.
Qed.

Lemma preserves_try_catch {A} (m : proc A) (h : error -> proc A) :
  preserves_registry m -> (forall e, preserves_registry (h e)) ->
  preserves_registry (try_catch m h).
Proof.
  intros Hm Hh w. unfold try_catch. specialize (Hm w).
  destruct (m w) as [[a|code|e] w']; simpl in *; try assumption.
  now rewrite Hh.
Qed.

Ltac registry_frame_with known :=
  repeat first
    [ progress intros
    | known
    | apply preserves_ret | apply preserves_emit | apply preserves_throw
    | apply preserves_exit | apply preserves_read
    | apply preserves_bind
    | apply preserves_try_catch
    | match goal with
      | |- preserves_registry (match ?x with _ => _ end) => destruct x
      | |- preserves_registry (if ?x then _ else _) => destruct x
      end ].

Ltac registry_frame := registry_frame_with fail.

Lemma preserves_skip argv : preserves_registry (skip argv).
Proof. unfold skip, console_error. registry_frame. Qed.

Lemma preserves_call_command path pdp o :
  preserves_registry (call_command path pdp o).
Proof. unfold call_command. registry_frame. Qed.

Lemma preserves_validate v : preserves_registry (validate_keycloak_version v).
Proof.
  unfold validate_keycloak_version, isValidVersion, semver_parse, console_log.
  registry_frame.
Qed.

Lemma preserves_handler c ctx : preserves_registry (handler c ctx).
Proof.
  destruct c; unfold handler, plain_handler, start_keycloak_handler,
    eject_file_handler, dynamic_import;
    registry_frame_with
      ltac:(first [ apply preserves_call_command | apply preserves_validate ]).
Qed.

Lemma preserves_run_task inv : preserves_registry (run_task inv).
Proof.
  unfold run_task, onException.
  registry_frame_with
    ltac:(first [ apply preserves_skip | apply preserves_handler ]).
Qed.

Lemma preserves_fallback_router process_argv :
  preserves_registry (fallback_router process_argv).
Proof. unfold fallback_router, spawnSync. registry_frame. Qed.

Lemma preserves_execute inv : preserves_registry (execute inv).
Proof.
  unfold execute, unhandled_rejection, onException.
  registry_frame_with
    ltac:(first [ apply preserves_skip | apply preserves_handler ]).
Qed.

Lemma preserves_dispatch process_argv inv :
  preserves_registry (dispatch process_argv inv).
Proof.
  unfold dispatch.
  registry_frame_with
    ltac:(first [ apply preserves_fallback_router | apply preserves_execute ]).
Qed.

Lemma construct_catalog_run w :
  construct_catalog w =
    (Done tt, {| optionsKeys := optionsKeys w ++ registry; trace := trace w |}).
Proof.
  rewrite registry_eq. destruct w as [ks t].
  unfold construct_catalog, bind. simpl.
  unfold register_command, register_option, bind, push, ret. simpl.
  repeat rewrite <- app_assoc. reflexivity.
Qed.

(** ** The skip predicate *)

(** C3: whatever the options bag, [skip] looks for the first supplied key
    that the registry does not hold.  When there is one it writes the single
    line [keycloakify: Unrecognized option: ] followed by [-] (key of length
    one) or [--] and the key to standard error and exits with code 1; some
    supplied key outside the registry always gives such a first key.  When
    every supplied key is in the registry, and so for an empty bag, it returns
    [false] and leaves the world as it was. *)
Theorem skip_unrecognized_or_proceed (argv : task_argv) (w : world) :
  let keys := Object_keys (options argv) in
  (forall k, first_unrecognized (optionsKeys w) keys k ->
     let prefix := if Nat.eqb (String.length k) 1 then "-" else "--" in
     skip argv w =
       (Exited 1,
        {| optionsKeys := optionsKeys w;
           trace := trace w ++
             [ConsoleError ("keycloakify: Unrecognized option: " ++ prefix ++ k)] |}))
  /\ ((exists x, In x keys /\ ~ In x (optionsKeys w)) ->
      exists k, first_unrecognized (optionsKeys w) keys k)
  /\ ((forall x, In x keys -> In x (optionsKeys w)) -> skip argv w = (Done false, w))
  /\ (keys = [] -> skip argv w = (Done false, w)).
Proof.
  intros keys. repeat split.
  - intros k Hk prefix. rewrite (skip_unrecognized _ _ _ Hk).
    unfold after, unrecognized_option_message, prefix.
    replace (Z.of_nat (String.length k) =? 1) with (Nat.eqb (String.length k) 1);
      [reflexivity|].
    destruct (Nat.eqb_spec (String.length k) 1) as [->|Hn]; [reflexivity|].
    symmetry. apply Z.eqb_neq. lia.
  - apply exists_first_unrecognized.
  - apply skip_recognized.
  - intros Hnil. apply skip_recognized. fold keys. rewrite Hnil. intros x [].
Qed.

(** C9: [skip] never answers [true].  For every options bag it either
    returns [false] or the process has exited with code 1; a task is therefore
    never skipped while the program goes on: running a task is running [skip]
    and then the handler. *)
Theorem skip_never_true (bag : task_argv) (w : world) :
  ((exists w', skip bag w = (Done false, w')) \/
   (exists w', skip bag w = (Exited 1, w')))
  /\ (forall w', skip bag w <> (Done true, w'))
  /\ (forall inv, run_task inv w =
        bind (skip (argv inv))
             (fun _ => try_catch (handler (selected inv) (ctx_of inv)) onException) w).
Proof.
  assert (H : forall a, (exists w', skip a w = (Done false, w')) \/
                        (exists w', skip a w = (Exited 1, w'))).
  { intros a.
    destruct (find (fun key => negb (includes (optionsKeys w) key))
                   (Object_keys (options a))) as [k|] eqn:Hf.
    - apply find_some_first_unrecognized in Hf.
      right. eexists. apply (skip_unrecognized _ _ _ Hf).
    - left. exists w. unfold skip, bind, read_optionsKeys. simpl.
      rewrite Hf. reflexivity. }
  repeat split.
  - apply H.
  - intros w' Heq. destruct (H bag) as [[w1 H1]|[w1 H1]]; congruence.
  - intros inv. unfold run_task, bind.
    destruct (H (argv inv)) as [[w1 H1]|[w1 H1]]; rewrite H1; reflexivity.
Qed.

(** C10: building the catalog leaves in [optionsKeys] exactly the six tokens
    [project], [p], [port], [keycloak-version], [import], [file], each pushed
    once, and nothing that runs afterwards (the fallback router, [skip], the
    handlers, the exception sink) adds to, removes from or reorders the
    array. *)
Theorem registry_six_tokens_fixed :
  optionsKeys (snd (construct_catalog initial_world)) =
    ["project"; "p"; "port"; "keycloak-version"; "import"; "file"]
  /\ NoDup (optionsKeys (snd (construct_catalog initial_world)))
  /\ (forall process_argv inv w,
        optionsKeys (snd (dispatch process_argv inv w)) = optionsKeys w)
  /\ (forall process_argv inv,
        optionsKeys (snd (main process_argv inv initial_world)) =
          ["project"; "p"; "port"; "keycloak-version"; "import"; "file"]).
Proof.
  repeat split.
  - repeat (constructor; [simpl; intuition discriminate|]). constructor.
  - intros. apply preserves_dispatch.
  - intros. unfold main, bind. rewrite construct_catalog_run.
    rewrite preserves_dispatch. reflexivity.
Qed.

(** ** The fallback router *)

Lemma startsWith_dash s :
  startsWith s "-" = true <-> exists tail, s = String "-"%char tail.
Proof.
  unfold startsWith. destruct s as [|c s]; cbn [String.prefix].
  - split; [discriminate | intros [tail H]; discriminate].
  - destruct (ascii_dec "-"%char c) as [Hc|Hc].
    + split; [intros _; exists s; now rewrite Hc | intros _; now destruct s].
    + split; [discriminate | intros [tail H]; injection H as H _; congruence].
Qed.

Lemma fallback_router_not_routed process_argv w :
  fallback_condition (rest_of process_argv) = false ->
  fallback_router process_argv w = (Done tt, w).
Proof. unfold fallback_router. now intros ->. Qed.

Lemma fallback_router_routed process_argv w :
  fallback_condition (rest_of process_argv) = true ->
  fallback_router process_argv w =
    (Exited (status_or_1
               (spawn_status "npx" ("keycloakify" :: "build" :: rest_of process_argv))),
     after w [SpawnSync "npx" ("keycloakify" :: "build" :: rest_of process_argv) Inherit]).
Proof. unfold fallback_router. now intros ->. Qed.

Lemma count_app p t t' : count p (t ++ t') = (count p t + count p t')%nat.
Proof. unfold count. now rewrite filter_app, length_app. Qed.

Lemma stdout_of_app t t' : stdout_of (t ++ t') = (stdout_of t ++ stdout_of t')%list.
Proof.
  induction t as [|ev t IH]; simpl; [reflexivity|].
  destruct ev; simpl; now rewrite IH.
Qed.

Lemma stderr_count_app t t' :
  stderr_count (t ++ t') = (stderr_count t + stderr_count t')%nat.
Proof.
  induction t as [|ev t IH]; simpl; [reflexivity|].
  destruct ev; simpl; now rewrite IH.
Qed.

(** C4: the router takes the fallback exactly when nothing follows the first
    two process arguments, or the first of what follows starts with a dash
    and is neither [--help] nor [-h].  When it does not, nothing happens and
    the script goes on; a first argument [--help] or [-h] is never routed. *)
Theorem fallback_routes_iff (process_argv : list string) (w : world) :
  let rest := skipn 2 process_argv in
  (fallback_condition (rest_of process_argv) = true <->
     rest = [] \/
     exists rest0 tl,
       rest = rest0 :: tl /\ (exists tail, rest0 = String "-"%char tail)
       /\ rest0 <> "--help" /\ rest0 <> "-h")
  /\ (fallback_condition (rest_of process_argv) = true <->
      exists code, fst (fallback_router process_argv w) = Exited code)
  /\ (fallback_condition (rest_of process_argv) = false <->
      fallback_router process_argv w = (Done tt, w))
  /\ (forall tl, rest = "--help" :: tl \/ rest = "-h" :: tl ->
      fallback_router process_argv w = (Done tt, w)).
Proof.
  intros rest. unfold rest_of. fold rest.
  assert (Hiff : fallback_condition rest = true <->
     rest = [] \/
     exists rest0 tl,
       rest = rest0 :: tl /\ (exists tail, rest0 = String "-"%char tail)
       /\ rest0 <> "--help" /\ rest0 <> "-h").
  { destruct rest as [|rest0 tl]; simpl.
    - split; auto.
    - rewrite !andb_true_iff, !negb_true_iff, !String.eqb_neq, startsWith_dash.
      split.
      + intros [[H1 H2] H3]. right. exists rest0, tl. auto.
      + intros [H|(r & t & [= -> ->] & H1 & H2 & H3)]; [discriminate | auto]. }
  repeat split.
  - apply Hiff.
  - apply Hiff.
  - intros H. rewrite (fallback_router_routed process_argv w H). simpl. eauto.
  - intros [code H]. destruct (fallback_condition rest) eqn:Hc; [reflexivity|].
    rewrite (fallback_router_not_routed process_argv w Hc) in H. discriminate.
  - apply fallback_router_not_routed.
  - intros H. destruct (fallback_condition rest) eqn:Hc; [|reflexivity].
    rewrite (fallback_router_routed process_argv w Hc) in H. discriminate.
  - intros tl H. apply fallback_router_not_routed. unfold rest_of. fold rest.
    destruct H as [-> | ->]; reflexivity.
Qed.

(** C5: when the router takes the fallback it makes one [spawnSync] call,
    [npx keycloakify build ...rest] with the standard streams inherited,
    takes the child's status when the call returns and exits with that
    status, or with 1 when the status is [null]; the selected task is not run
    in this process. *)
Theorem fallback_spawns_build (process_argv : list string) (w : world) :
  let rest := skipn 2 process_argv in
  fallback_condition rest = true ->
  let child := SpawnSync "npx" ("keycloakify" :: "build" :: rest) Inherit in
  let code :=
    match spawn_status "npx" ("keycloakify" :: "build" :: rest) with
    | Some status => status
    | None => 1
    end in
  fallback_router process_argv w =
    (Exited code, {| optionsKeys := optionsKeys w; trace := trace w ++ [child] |})
  /\ (forall inv, dispatch process_argv inv w =
        (Exited code, {| optionsKeys := optionsKeys w; trace := trace w ++ [child] |})).
Proof.
  intros rest H child code.
  pose proof (fallback_router_routed process_argv w H) as Hr.
  split; [exact Hr|].
  intros inv. unfold dispatch, bind. rewrite Hr. reflexivity.
Qed.

(** ** Recognition of flags *)


Lemma run_task_recognized inv w :
  (forall x, In x (Object_keys (options (argv inv))) -> In x (optionsKeys w)) ->
  run_task inv w = try_catch (handler (selected inv) (ctx_of inv)) onException w.
Proof.
  intros H. unfold run_task, bind. now rewrite (skip_recognized _ _ H).
Qed.

Lemma run_task_unrecognized inv w k :
  first_unrecognized (optionsKeys w) (Object_keys (options (argv inv))) k ->
  run_task inv w =
    (Exited 1, after w [ConsoleError (unrecognized_option_message k)]).
Proof.
  intros H. unfold run_task, bind. now rewrite (skip_unrecognized _ _ _ H).
Qed.

Lemma first_unrecognized_In ks keys k :
  first_unrecognized ks keys k -> In k keys /\ ~ In k ks.
Proof.
  intros (pre & post & -> & _ & Hk). split; [|assumption].
  apply in_or_app. right. now left.
Qed.

(** What [execute] comes to, case by case. *)

Lemma registered_not_framework k : registered k -> ~ In k framework_keys.
Proof.
  intros Hr Hf. simpl in Hf.
  repeat (destruct Hf as [Hf|Hf];
          [subst k; destruct Hr as [Hr|(c & _ & Hr)];
           [simpl in Hr | destruct c; simpl in Hr];
           repeat (destruct Hr as [Hr|Hr]; [discriminate Hr|]);
           contradiction|]).
  contradiction.
Qed.

Lemma answered_by_framework_false keys :
  answered_by_framework keys = false <->
  forall k, In k keys -> ~ In k framework_keys.
Proof.
  unfold answered_by_framework. split.
  - intros H k Hk Hf. apply includes_In in Hf.
    assert (Hex : existsb (includes framework_keys) keys = true)
      by (apply existsb_exists; eauto).
    congruence.
  - intros H. destruct (existsb (includes framework_keys) keys) eqn:E;
      [|reflexivity].
    apply existsb_exists in E. destruct E as (k & Hk & Hf).
    apply includes_In in Hf. elim (H k Hk Hf).
Qed.


Lemma execute_answered inv w :
  answered_by_framework (Object_keys (options (argv inv))) = true ->
  execute inv w =
    (Done tt, after w [FrameworkAnswer (Object_keys (options (argv inv)))]).
Proof. intros H. unfold execute. rewrite H. reflexivity. Qed.

Lemma execute_recognized inv w :
  answered_by_framework (Object_keys (options (argv inv))) = false ->
  (forall x, In x (Object_keys (options (argv inv))) -> In x (optionsKeys w)) ->
  execute inv w =
    try_catch (handler (selected inv) (ctx_of inv)) unhandled_rejection w.
Proof.
  intros Ha H. unfold execute, bind. rewrite Ha.
  now rewrite (skip_recognized _ _ H).
Qed.

Lemma execute_unrecognized inv w k :
  answered_by_framework (Object_keys (options (argv inv))) = false ->
  first_unrecognized (optionsKeys w) (Object_keys (options (argv inv))) k ->
  execute inv w =
    (Exited 1, after w [ConsoleError (unrecognized_option_message k)]).
Proof.
  intros Ha H. unfold execute, bind. rewrite Ha.
  now rewrite (skip_unrecognized _ _ _ H).
Qed.

(** The task with [onException] attached is the framework's run of it when
    the framework does not answer the bag and what the handler throws is an
    [Error]. *)
Lemma execute_run_task inv w :
  answered_by_framework (Object_keys (options (argv inv))) = false ->
  (forall e w', handler (selected inv) (ctx_of inv) w = (Thrown e, w') ->
                is_Error e = true) ->
  execute inv w = run_task inv w.
Proof.
  intros Ha He. unfold execute, run_task, bind. rewrite Ha.
  destruct (skip (argv inv) w) as [[[|]|code|e] w1] eqn:Hs; try reflexivity.
  assert (w1 = w).
  { destruct (find (fun key => negb (includes (optionsKeys w) key))
                   (Object_keys (options (argv inv)))) as [k|] eqn:Hf.
    - apply find_some_first_unrecognized in Hf.
      rewrite (skip_unrecognized _ _ _ Hf) in Hs. discriminate.
    - rewrite skip_recognized in Hs; [congruence|].
      intros x Hx. apply (find_none _ _ Hf) in Hx.
      now apply negb_false_iff, includes_In in Hx. }
  subst w1. unfold try_catch.
  destruct (handler (selected inv) (ctx_of inv) w) as [[a|code|e] w1] eqn:Hh;
    try reflexivity.
  unfold unhandled_rejection, bind. rewrite (He e w1 eq_refl).
  unfold onException, bind, emit, process_exit. reflexivity.
Qed.


(** ** The handlers and the exception sink *)

Ltac run_handler :=
  unfold run_task, handler, plain_handler, start_keycloak_handler,
    eject_file_handler, validate_keycloak_version, isValidVersion, semver_parse,
    call_command, dynamic_import, console_log, console_error, onException,
    try_catch, bind, ret, emit, throw, process_exit, truthy, after;
  simpl.

Ltac split_cases :=
  repeat match goal with
    | |- context [match ?x with _ => _ end] => destruct x eqn:?; simpl
    end.

Ltac tidy_trace := repeat rewrite <- app_assoc; simpl.

Lemma invalid_version_message_text shown :
  invalid_version_message shown =
    "Invalid Keycloak version: " ++ shown
      ++ " It should be a valid semver version example: 26.0.4".
Proof.
  unfold invalid_version_message, join. simpl. reflexivity.
Qed.

(** The validation block on a supplied version: whatever [SemVer.parse]
    answers, [isValidVersion] is not truthy. *)
Lemma isValidVersion_not_truthy v w :
  exists r, isValidVersion v w = (Done r, after w (parse_events v))
            /\ truthy r = false.
Proof.
  destruct v as [n|s]; unfold isValidVersion, semver_parse, bind, ret, emit, after;
    simpl.
  - exists (Some false). rewrite app_nil_r. now destruct w.
  - destruct (SemVer_parse s); eexists; split; reflexivity.
Qed.

Lemma validate_supplied_version v w :
  validate_keycloak_version (Some v) w =
    (Exited 1,
     after w (parse_events v ++
              [ConsoleLog (chalk_red (invalid_version_message (version_to_string v)))])).
Proof.
  destruct (isValidVersion_not_truthy v w) as (r & Hr & Ht).
  unfold validate_keycloak_version, bind. rewrite Hr, Ht.
  unfold console_log, emit, process_exit, after. simpl.
  now rewrite app_assoc.
Qed.

Lemma start_keycloak_supplied_version ctx v w :
  keycloakVersion ctx = Some v ->
  start_keycloak_handler ctx w =
    (Exited 1,
     after w (Import "./start-keycloak" :: parse_events v ++
              [ConsoleLog (chalk_red (invalid_version_message (version_to_string v)))])).
Proof.
  intros Hv. unfold start_keycloak_handler, bind, dynamic_import, emit. simpl.
  rewrite Hv, validate_supplied_version. unfold after. simpl.
  now rewrite <- app_assoc.
Qed.


Lemma execute_thrown inv w e w' :
  answered_by_framework (Object_keys (options (argv inv))) = false ->
  (forall x, In x (Object_keys (options (argv inv))) -> In x (optionsKeys w)) ->
  handler (selected inv) (ctx_of inv) w = (Thrown e, w') ->
  execute inv w =
    (Exited 1, after w' (if is_Error e then [ConsoleErrorValue e] else [])).
Proof.
  intros Ha Hk Hh. rewrite (execute_recognized _ _ Ha Hk).
  unfold try_catch. rewrite Hh.
  unfold unhandled_rejection, onException, bind, emit, ret, process_exit, after.
  destruct (is_Error e); simpl; [reflexivity|].
  rewrite app_nil_r. now destruct w'.
Qed.


(** C2: on [start-keycloak], a [keycloakVersion] that is a number, or a
    string on which [SemVer.parse] throws, makes the task print the red line
    [Invalid Keycloak version: {value} It should be a valid semver version
    example: 26.0.4] with [console.log], that is on standard output, nothing on
    standard error, and exit with code 1; the command of the handler is not
    invoked. *)
Theorem invalid_version_exits (inv : invocation) (v : version_value) (w : world) :
  selected inv = start_keycloak ->
  (forall x, In x (Object_keys (options (argv inv))) -> In x (optionsKeys w)) ->
  keycloakVersion (ctx_of inv) = Some v ->
  match v with
  | VNumber _ => True
  | VString s => SemVer_parse s = None
  end ->
  let shown :=
    match v with
    | VNumber n => number_to_string n
    | VString s => s
    end in
  exists w',
    run_task inv w = (Exited 1, w')
    /\ stdout_of (trace w') =
         (stdout_of (trace w) ++
          [chalk_red ("Invalid Keycloak version: " ++ shown
                      ++ " It should be a valid semver version example: 26.0.4")])%list
    /\ stderr_count (trace w') = stderr_count (trace w)
    /\ count is_command (trace w') = count is_command (trace w).
Proof.
  intros Hsel Hk Hv _ shown.
  rewrite (run_task_recognized _ _ Hk), Hsel. unfold try_catch, handler.
  rewrite (start_keycloak_supplied_version _ _ _ Hv).
  eexists. split; [reflexivity|].
  unfold after. cbn [trace].
  rewrite stdout_of_app, stderr_count_app, count_app, invalid_version_message_text.
  destruct v as [n|s]; cbn; repeat split; auto with arith.
Qed.

(** C7: on [start-keycloak], when [keycloakVersion] is [undefined] the
    validation block does nothing: [SemVer.parse] is not called, nothing is
    printed, the handler does not exit, and it goes on to call the command
    with [keycloakVersion] still [undefined]. *)
Theorem absent_version_proceeds (ctx : context) (w : world) :
  keycloakVersion ctx = None ->
  validate_keycloak_version (keycloakVersion ctx) w = (Done tt, w)
  /\ start_keycloak_handler ctx w =
       bind (dynamic_import "./start-keycloak")
            (fun _ => call_command "./start-keycloak" (projectDirPath ctx)
                        (StartKeycloakOptions None (port ctx) (realmJsonFilePath ctx))) w
  /\ count is_parse (trace (snd (start_keycloak_handler ctx w))) =
       count is_parse (trace w)
  /\ stdout_of (trace (snd (start_keycloak_handler ctx w))) = stdout_of (trace w)
  /\ (forall code, fst (start_keycloak_handler ctx w) <> Exited code)
  /\ (forall bc, getBuildContext (projectDirPath ctx) = inr bc ->
        trace (snd (start_keycloak_handler ctx w)) =
          (trace w ++
           [Import "./start-keycloak";
            GetBuildContext (projectDirPath ctx);
            Command "./start-keycloak" bc
              (StartKeycloakOptions None (port ctx) (realmJsonFilePath ctx))])%list).
Proof.
  intros Hv. rewrite Hv.
  assert (Hrun : start_keycloak_handler ctx w =
       bind (dynamic_import "./start-keycloak")
            (fun _ => call_command "./start-keycloak" (projectDirPath ctx)
                        (StartKeycloakOptions None (port ctx) (realmJsonFilePath ctx))) w).
  { unfold start_keycloak_handler, bind. rewrite Hv. reflexivity. }
  split; [reflexivity|]. split; [exact Hrun|].
  rewrite Hrun. clear Hrun. run_handler.
  repeat split; split_cases; tidy_trace;
    rewrite ?count_app, ?stdout_of_app; cbn;
    try rewrite app_nil_r; try lia; try discriminate; try reflexivity.
  - intros bc [= ->]. reflexivity.
  - intros bc [= ->]. reflexivity.
Qed.


(** ** Further properties of the script *)

Lemma imports_of_app t t' :
  imports_of (t ++ t') = (imports_of t ++ imports_of t')%list.
Proof.
  induction t as [|ev t IH]; simpl; [reflexivity|].
  destruct ev; simpl; now rewrite IH.
Qed.

Lemma includes_same_tokens ks ks' k :
  same_tokens ks ks' -> includes ks k = includes ks' k.
Proof.
  intros H. destruct (includes ks' k) eqn:E.
  - apply includes_In. apply H. now apply includes_In.
  - apply includes_not_In. intros Hin. apply includes_not_In in E.
    apply E. now apply H.
Qed.

Lemma find_same_tokens ks ks' keys :
  same_tokens ks ks' ->
  find (fun key => negb (includes ks key)) keys =
  find (fun key => negb (includes ks' key)) keys.
Proof.
  intros H. induction keys as [|x keys IH]; simpl; [reflexivity|].
  now rewrite (includes_same_tokens _ _ x H), IH.
Qed.

Lemma handler_imports c ctx w :
  exists evs,
    snd (handler c ctx w) = after w evs /\ imports_of evs = [module_path c].
Proof.
  destruct c;
    try (run_handler; split_cases; tidy_trace; eexists;
         (split; reflexivity)).
  destruct (keycloakVersion ctx) as [v|] eqn:Hv.
  - unfold handler. rewrite (start_keycloak_supplied_version _ _ _ Hv). simpl.
    eexists. split; [reflexivity|]. destruct v; reflexivity.
  - run_handler. rewrite Hv. simpl. split_cases; tidy_trace; eexists;
      (split; reflexivity).
Qed.

Lemma handler_without_validation c ctx w :
  (c = start_keycloak -> keycloakVersion ctx = None) ->
  handler c ctx w =
    bind (dynamic_import (module_path c))
         (fun _ => call_command (module_path c) (projectDirPath ctx)
                     match c with
                     | start_keycloak =>
                         StartKeycloakOptions None (port ctx) (realmJsonFilePath ctx)
                     | eject_file => EjectFileOptions (file ctx)
                     | _ => NoCliCommandOptions
                     end) w.
Proof.
  intros Hv. destruct c; try reflexivity.
  unfold handler, start_keycloak_handler, bind. rewrite (Hv eq_refl). reflexivity.
Qed.

(** X1: a first argument that is the name of a subcommand is never taken
    for the fallback, whatever follows it; so the child the fallback spawns,
    whose arguments start with [build], does not spawn again. *)
Theorem subcommand_never_routed (node script : string) (c : command_name)
        (args : list string) (w : world) :
  fallback_condition (cli_name c :: args) = false
  /\ fallback_router (node :: script :: cli_name c :: args) w = (Done tt, w)
  /\ (forall rest,
        fallback_router (node :: script :: "build" :: rest) w = (Done tt, w)).
Proof.
  assert (H : fallback_condition (cli_name c :: args) = false)
    by (destruct c; reflexivity).
  split; [exact H | split].
  - apply fallback_router_not_routed. exact H.
  - intros rest. apply fallback_router_not_routed. reflexivity.
Qed.

(** X2: the check of the supplied keys comes before anything a command
    does.  For a bag without a key of the framework in which some supplied
    key is outside the registry, the run of the command ends in the same way
    whatever the selected command and whatever the option values: the one
    unrecognized-option line and exit code 1, with no module loaded and no
    version looked at. *)
Theorem unrecognized_option_whatever_command (bag : task_argv) (w : world) :
  (forall k, In k (Object_keys (options bag)) -> ~ In k framework_keys) ->
  (exists x, In x (Object_keys (options bag)) /\ ~ In x (optionsKeys w)) ->
  exists k,
    In k (Object_keys (options bag)) /\ ~ In k (optionsKeys w)
    /\ forall c ctx,
         execute {| selected := c; argv := bag; ctx_of := ctx |} w =
           (Exited 1,
            {| optionsKeys := optionsKeys w;
               trace := trace w ++ [ConsoleError (unrecognized_option_message k)] |}).
Proof.
  intros Hnf Hex. apply answered_by_framework_false in Hnf.
  destruct (exists_first_unrecognized _ _ Hex) as [k Hk].
  exists k. destruct (first_unrecognized_In _ _ _ Hk) as [Hin Hnot].
  repeat split; try assumption.
  intros c ctx.
  apply (execute_unrecognized {| selected := c; argv := bag; ctx_of := ctx |});
    assumption.
Qed.


(** X4: a whole run that succeeds.  With a subcommand given, registered
    option tokens only, no Keycloak version on [start-keycloak], a build
    context and a command that resolves, the script ends without exiting:
    the registry holds its six tokens and exactly three things happened, in
    this order: the module of the selected command was loaded, the build
    context was made from [projectDirPath], and the command was called with
    that context and the option values of its command, unchanged. *)
Theorem main_runs_selected_command (process_argv : list string) (inv : invocation)
        (bc : buildContext) :
  fallback_condition (skipn 2 process_argv) = false ->
  (forall x, In x (Object_keys (options (argv inv))) -> registered x) ->
  (selected inv = start_keycloak -> keycloakVersion (ctx_of inv) = None) ->
  getBuildContext (projectDirPath (ctx_of inv)) = inr bc ->
  let passed :=
    match selected inv with
    | start_keycloak =>
        StartKeycloakOptions None (port (ctx_of inv)) (realmJsonFilePath (ctx_of inv))
    | eject_file => EjectFileOptions (file (ctx_of inv))
    | _ => NoCliCommandOptions
    end in
  command_outcome (module_path (selected inv)) bc passed = None ->
  main process_argv inv initial_world =
    (Done tt,
     {| optionsKeys := ["project"; "p"; "port"; "keycloak-version"; "import"; "file"];
        trace :=
          [Import (module_path (selected inv));
           GetBuildContext (projectDirPath (ctx_of inv));
           Command (module_path (selected inv)) bc passed] |}).
Proof.
  intros Hc Hk Hv Hb passed Ho.
  unfold main, bind. rewrite construct_catalog_run. unfold dispatch, bind.
  rewrite fallback_router_not_routed by exact Hc.
  rewrite execute_recognized.
  - unfold try_catch. rewrite (handler_without_validation _ _ _ Hv).
    fold passed.
    unfold bind, dynamic_import, call_command, emit, ret. simpl.
    rewrite Hb. simpl. rewrite Ho. reflexivity.
  - apply answered_by_framework_false. intros k Hin.
    apply registered_not_framework. auto.
  - intros x Hx. simpl. apply registry_registered. auto.
Qed.

(** X5: handlers are resolved lazily.  Over a whole dispatch at most one
    module is loaded, and it is the module of the selected command; none is
    loaded when the fallback is taken or a supplied key is unrecognized. *)
Theorem only_selected_module_loaded (process_argv : list string) (inv : invocation)
        (w : world) :
  exists evs,
    snd (dispatch process_argv inv w) = after w evs
    /\ (imports_of evs = [] \/ imports_of evs = [module_path (selected inv)])
    /\ (fallback_condition (rest_of process_argv) = true -> imports_of evs = [])
    /\ ((exists x, In x (Object_keys (options (argv inv))) /\ ~ In x (optionsKeys w)) ->
        imports_of evs = []).
Proof.
  unfold dispatch, bind.
  destruct (fallback_condition (rest_of process_argv)) eqn:Hc.
  - rewrite (fallback_router_routed process_argv w Hc). simpl.
    eexists. split; [reflexivity|]. simpl. auto.
  - rewrite (fallback_router_not_routed process_argv w Hc).
    destruct (answered_by_framework (Object_keys (options (argv inv)))) eqn:Ha.
    { rewrite (execute_answered _ _ Ha). simpl.
      eexists. split; [reflexivity|]. simpl. auto. }
    destruct (find (fun key => negb (includes (optionsKeys w) key))
                   (Object_keys (options (argv inv)))) as [k|] eqn:Hf.
    + apply find_some_first_unrecognized in Hf.
      rewrite (execute_unrecognized _ _ _ Ha Hf). simpl.
      eexists. split; [reflexivity|]. simpl. auto.
    + assert (Hk : forall x, In x (Object_keys (options (argv inv))) ->
                             In x (optionsKeys w)).
      { intros x Hx. apply (find_none _ _ Hf) in Hx.
        now apply negb_false_iff, includes_In in Hx. }
      destruct (handler_imports (selected inv) (ctx_of inv) w) as (evs & Hs & Hi).
      destruct (handler (selected inv) (ctx_of inv) w) as [[a|code|e] w1] eqn:Hh;
        simpl in Hs; subst w1.
      * rewrite (execute_recognized _ _ Ha Hk). unfold try_catch. rewrite Hh.
        exists evs. simpl. repeat split; auto; try discriminate.
        intros (x & Hx & Hn). elim Hn. auto.
      * rewrite (execute_recognized _ _ Ha Hk). unfold try_catch. rewrite Hh.
        exists evs. simpl. repeat split; auto; try discriminate.
        intros (x & Hx & Hn). elim Hn. auto.
      * rewrite (execute_thrown _ _ _ _ Ha Hk Hh).
        exists (evs ++ (if is_Error e then [ConsoleErrorValue e] else []))%list.
        unfold after. simpl. rewrite imports_of_app, Hi, <- app_assoc.
        destruct (is_Error e); simpl;
          repeat split; auto; try discriminate;
          intros (x & Hx & Hn); elim Hn; auto.
Qed.

(** X6: [skip] looks at [optionsKeys] through [includes] only.  Two arrays
    with the same tokens, in any order and with any repetitions, make it end
    the same way, with the same line written. *)
Theorem skip_membership_only (bag : task_argv) (w w' : world) :
  trace w = trace w' ->
  same_tokens (optionsKeys w) (optionsKeys w') ->
  fst (skip bag w) = fst (skip bag w')
  /\ trace (snd (skip bag w)) = trace (snd (skip bag w')).
Proof.
  intros Ht Hs. unfold skip, bind, read_optionsKeys. simpl.
  rewrite (find_same_tokens _ _ (Object_keys (options bag)) Hs).
  destruct (find (fun key => negb (includes (optionsKeys w') key))
                 (Object_keys (options bag))); simpl; rewrite Ht; auto.
Qed.

(** X7: the catalog is unambiguous.  Different commands have different
    names and load different modules, every command is registered exactly
    once, and within one command, the program's option included, no two
    options share a key. *)
Theorem catalog_unambiguous :
  (forall c c', cli_name c = cli_name c' -> c = c')
  /\ (forall c c', module_path c = module_path c' -> c = c')
  /\ (forall c, In c catalog)
  /\ NoDup catalog
  /\ (forall c, NoDup (map key (program_options ++ command_options c))).
Proof.
  repeat split.
  - intros c c' H. destruct c, c'; solve [reflexivity | discriminate H].
  - intros c c' H. destruct c, c'; solve [reflexivity | discriminate H].
  - intros c. destruct c; simpl; auto 12.
  - unfold catalog.
    repeat (constructor; [simpl; intuition discriminate|]). constructor.
  - intros c. destruct c; simpl;
      repeat (constructor; [simpl; intuition discriminate|]); constructor.
Qed.

(** X8: every handler but that of [start-keycloak] is quiet: it does not
    exit the process, writes nothing to either stream and does not call
    [SemVer.parse]; it ends by returning or by throwing.  The handlers
    without options of their own read [projectDirPath] only. *)
Theorem other_handlers_quiet (c : command_name) (ctx : context) (w : world) :
  c <> start_keycloak ->
  (forall code, fst (handler c ctx w) <> Exited code)
  /\ stdout_of (trace (snd (handler c ctx w))) = stdout_of (trace w)
  /\ stderr_count (trace (snd (handler c ctx w))) = stderr_count (trace w)
  /\ count is_parse (trace (snd (handler c ctx w))) = count is_parse (trace w)
  /\ (c <> eject_file ->
      forall ctx', projectDirPath ctx' = projectDirPath ctx ->
                   handler c ctx' w = handler c ctx w).
Proof.
  intros Hc.
  assert (Hrun := handler_without_validation c ctx w
                    (fun H => False_ind _ (Hc H))).
  rewrite Hrun.
  split; [|split; [|split; [|split]]].
  - unfold bind, dynamic_import, call_command, emit, throw, ret. simpl.
    split_cases; discriminate.
  - unfold bind, dynamic_import, call_command, emit, throw, ret. simpl.
    split_cases; tidy_trace; rewrite stdout_of_app; simpl; apply app_nil_r.
  - unfold bind, dynamic_import, call_command, emit, throw, ret. simpl.
    split_cases; tidy_trace; rewrite stderr_count_app; simpl; lia.
  - unfold bind, dynamic_import, call_command, emit, throw, ret. simpl.
    split_cases; tidy_trace; rewrite count_app; cbn; lia.
  - intros Hf ctx' Hp. rewrite <- Hrun.
    destruct c; try contradiction; unfold handler, plain_handler;
      now rewrite Hp.
Qed.

(** X9: [SemVer.parse] is called by the [start-keycloak] handler only, only
    for a version that is a string, once, and with that string; a number is
    turned down before any parse. *)
Theorem parse_called_on_strings_only (c : command_name) (ctx : context) (w : world) :
  exists evs,
    snd (handler c ctx w) = after w evs
    /\ filter is_parse evs =
         match c, keycloakVersion ctx with
         | start_keycloak, Some (VString s) => [SemVerParse s]
         | _, _ => []
         end.
Proof.
  destruct c;
    try (run_handler; split_cases; tidy_trace; eexists;
         (split; reflexivity)).
  destruct (keycloakVersion ctx) as [v|] eqn:Hv.
  - unfold handler. rewrite (start_keycloak_supplied_version _ _ _ Hv). simpl.
    eexists. split; [reflexivity|]. destruct v; reflexivity.
  - run_handler. rewrite Hv. simpl. split_cases; tidy_trace; eexists;
      (split; reflexivity).
Qed.

End Dispatcher.

Arguments Done {error A} a.
Arguments Exited {error A} code.
Arguments Thrown {error A} e.
Arguments VNumber {number} n.
Arguments VString {number} s.
Arguments NoCliCommandOptions {number}.
Arguments StartKeycloakOptions {number} keycloakVersion port realmJsonFilePath.
Arguments EjectFileOptions {number} file.
Arguments ConsoleLog {number error buildContext} line.
Arguments ConsoleError {number error buildContext} line.
Arguments ConsoleErrorValue {number error buildContext} e.
Arguments SemVerParse {number error buildContext} versionStr.
Arguments Import {number error buildContext} path.
Arguments GetBuildContext {number error buildContext} projectDirPath.
Arguments Command {number error buildContext} path bc o.
Arguments SpawnSync {number error buildContext} cmd args io.
Arguments FrameworkAnswer {number error buildContext} keys.

(** ** The script on examples

    The collaborators are replaced by the stand-ins: whole numbers shown in
    decimal, strings as thrown values (each an [Error], given by its
    message, unless said otherwise), [SemVerModel.parse], [ansi_red], a
    build context that is the project directory itself, a command that
    resolves (or, where said, rejects) and a child that ends with status 0
    (or, where said, without one). *)

(** C1 (the code does otherwise): [start-keycloak --keycloak-version 26.0.4],
    a version [SemVerModel.parse] accepts, does not reach the command.  The
    run prints [Invalid Keycloak version: 26.0.4 ...] in red and exits with
    code 1: [isValidVersion] is [undefined] on the path where the parse
    succeeds, and [undefined] is not truthy. *)
Theorem start_keycloak_26_0_4_exits :
  SemVerModel.parse "26.0.4" =
    Some {| SemVerModel.major := 26; SemVerModel.minor := 0;
            SemVerModel.patch := 4; SemVerModel.prerelease := None;
            SemVerModel.buildmetadata := None |}
  /\ main Z decimal string string SemVerModel.version SemVerModel.parse ansi_red
       (option string) (fun p => inr p) (fun _ _ _ => None) (fun _ _ => Some 0)
       (fun _ => true)
       ["node"; "keycloakify"; "start-keycloak"; "--keycloak-version"; "26.0.4"]
       {| selected := start_keycloak;
          argv := {| options := [("keycloak-version", "26.0.4")] |};
          ctx_of := {| projectDirPath := None; port := None;
                       keycloakVersion := Some (VString "26.0.4");
                       realmJsonFilePath := None; file := "" |} |}
       (initial_world Z string (option string))
     = (Exited 1,
        {| optionsKeys := ["project"; "p"; "port"; "keycloak-version"; "import"; "file"];
           trace :=
             [Import "./start-keycloak";
              SemVerParse "26.0.4";
              ConsoleLog
                (ansi_red
                   "Invalid Keycloak version: 26.0.4 It should be a valid semver version example: 26.0.4")] |}).
Proof. split; reflexivity. Qed.

(** The world once the catalog is built, with nothing observed yet. *)
Local Abbreviation built :=
  ({| optionsKeys := ["project"; "p"; "port"; "keycloak-version"; "import"; "file"];
      trace := [] |} : world Z string (option string)).

(** [start-keycloak --keycloak-version not-a-version]. *)
Lemma invalid_version_exits_witness :
  exists w',
    run_task Z decimal string string SemVerModel.version SemVerModel.parse ansi_red
      (option string) (fun p => inr p) (fun _ _ _ => None)
      {| selected := start_keycloak;
         argv := {| options := [("keycloak-version", "not-a-version")] |};
         ctx_of := {| projectDirPath := None; port := None;
                      keycloakVersion := Some (VString "not-a-version");
                      realmJsonFilePath := None; file := "" |} |}
      built = (Exited 1, w')
    /\ stdout_of Z string (option string) (trace Z string (option string) w') =
         [ansi_red
            "Invalid Keycloak version: not-a-version It should be a valid semver version example: 26.0.4"]
    /\ stderr_count Z string (option string) (trace Z string (option string) w') = 0%nat
    /\ count Z string (option string) (is_command Z string (option string))
         (trace Z string (option string) w') = 0%nat.
Proof.
  apply (invalid_version_exits Z decimal string string SemVerModel.version
           SemVerModel.parse ansi_red (option string) (fun p => inr p)
           (fun _ _ _ => None) _ (VString "not-a-version") built).
  - reflexivity.
  - simpl. intros x [<-|[]]. auto 10.
  - reflexivity.
  - reflexivity.
Defined.

(** [--project x -v 1 --zzz 2]: [v] is the first key the registry lacks. *)
Lemma skip_unrecognized_or_proceed_witness :
  skip Z string string (option string)
    {| options := [("project", "x"); ("v", "1"); ("zzz", "2")] |} built
  = (Exited 1,
     {| optionsKeys := ["project"; "p"; "port"; "keycloak-version"; "import"; "file"];
        trace := [ConsoleError "keycloakify: Unrecognized option: -v"] |})
  /\ skip Z string string (option string)
       {| options := [("p", "x"); ("port", "8085")] |} built
     = (Done false, built).
Proof.
  split.
  - destruct (skip_unrecognized_or_proceed Z string string (option string)
                {| options := [("project", "x"); ("v", "1"); ("zzz", "2")] |} built)
      as (H & _).
    apply (H "v").
    exists ["project"], ["zzz"]. split; [reflexivity|]. split.
    + constructor; [simpl; auto | constructor].
    + simpl. intros Hin.
      repeat (destruct Hin as [Hin|Hin]; [discriminate Hin|]). exact Hin.
  - destruct (skip_unrecognized_or_proceed Z string string (option string)
                {| options := [("p", "x"); ("port", "8085")] |} built)
      as (_ & _ & H & _).
    apply H. simpl. intros x [<-|[<-|[]]]; auto 10.
Defined.

(** [--project foo] with no subcommand, the child ending without a status;
    and no argument at all, the child ending with status 0. *)
Lemma fallback_spawns_build_witness :
  fallback_router Z string (option string) (fun _ _ => None)
    ["node"; "keycloakify"; "--project"; "foo"] built
  = (Exited 1,
     {| optionsKeys := ["project"; "p"; "port"; "keycloak-version"; "import"; "file"];
        trace := [SpawnSync "npx" ["keycloakify"; "build"; "--project"; "foo"] Inherit] |})
  /\ fallback_router Z string (option string) (fun _ _ => Some 0)
       ["node"; "keycloakify"] built
     = (Exited 0,
        {| optionsKeys := ["project"; "p"; "port"; "keycloak-version"; "import"; "file"];
           trace := [SpawnSync "npx" ["keycloakify"; "build"] Inherit] |}).
Proof.
  split.
  - apply (fallback_spawns_build Z decimal string string SemVerModel.version
             SemVerModel.parse ansi_red (option string) (fun p => inr p)
             (fun _ _ _ => None) (fun _ _ => None) (fun _ => true)
             ["node"; "keycloakify"; "--project"; "foo"] built).
    reflexivity.
  - apply (fallback_spawns_build Z decimal string string SemVerModel.version
             SemVerModel.parse ansi_red (option string) (fun p => inr p)
             (fun _ _ _ => None) (fun _ _ => Some 0) (fun _ => true)
             ["node"; "keycloakify"] built).
    reflexivity.
Defined.

(** [--project foo] is routed, [--help] is not. *)
Lemma fallback_routes_iff_witness :
  fallback_condition ["--project"; "foo"] = true
  /\ fallback_router Z string (option string) (fun _ _ => Some 0)
       ["node"; "keycloakify"; "--help"] built = (Done tt, built).
Proof.
  split.
  - destruct (fallback_routes_iff Z string (option string) (fun _ _ => Some 0)
                ["node"; "keycloakify"; "--project"; "foo"] built) as ([_ H] & _).
    apply H.
    right. exists "--project", ["foo"]. split; [reflexivity|].
    split; [exists "-project"; reflexivity|]. split; discriminate.
  - destruct (fallback_routes_iff Z string (option string) (fun _ _ => Some 0)
                ["node"; "keycloakify"; "--help"] built) as (_ & _ & _ & H).
    apply (H []). left. reflexivity.
Defined.



(** [start-keycloak] with no [--keycloak-version]. *)
Lemma absent_version_proceeds_witness :
  trace Z string (option string)
    (snd (start_keycloak_handler Z decimal string SemVerModel.version
            SemVerModel.parse ansi_red (option string) (fun p => inr p)
            (fun _ _ _ => None)
            {| projectDirPath := None; port := Some 8085;
               keycloakVersion := None; realmJsonFilePath := None; file := "" |}
            built))
  = [Import "./start-keycloak";
     GetBuildContext None;
     Command "./start-keycloak" None (StartKeycloakOptions None (Some 8085) None)].
Proof.
  destruct (absent_version_proceeds Z decimal string SemVerModel.version
              SemVerModel.parse ansi_red (option string) (fun p => inr p)
              (fun _ _ _ => None)
              {| projectDirPath := None; port := Some 8085;
                 keycloakVersion := None; realmJsonFilePath := None; file := "" |}
              built eq_refl) as (_ & _ & _ & _ & _ & H).
  apply (H None). reflexivity.
Defined.

(** In the two runs below a thrown value is a pair: whether it is an
    [Error] instance, and its text. *)



(** [start-keycloak --keycloak-version nope --verbose]: the unknown flag is
    what the run reports, for this and for any other command. *)
Lemma unrecognized_option_whatever_command_witness :
  exists k,
    In k ["keycloak-version"; "verbose"]
    /\ ~ In k ["project"; "p"; "port"; "keycloak-version"; "import"; "file"]
    /\ forall c ctx,
         execute Z decimal string string SemVerModel.version SemVerModel.parse
           ansi_red (option string) (fun p => inr p) (fun _ _ _ => None)
           (fun _ => true)
           {| selected := c;
              argv := {| options := [("keycloak-version", "nope"); ("verbose", "true")] |};
              ctx_of := ctx |}
           built
         = (Exited 1,
            {| optionsKeys := ["project"; "p"; "port"; "keycloak-version"; "import"; "file"];
               trace := [ConsoleError (unrecognized_option_message k)] |}).
Proof.
  apply (unrecognized_option_whatever_command Z decimal string string
           SemVerModel.version SemVerModel.parse ansi_red (option string)
           (fun p => inr p) (fun _ _ _ => None) (fun _ => true)
           {| options := [("keycloak-version", "nope"); ("verbose", "true")] |}
           built).
  - simpl. intros k [<-|[<-|[]]] Hf;
      repeat (destruct Hf as [Hf|Hf]; [discriminate Hf|]); exact Hf.
  - exists "verbose". split; [simpl; auto|].
    simpl. intros H. repeat (destruct H as [H|H]; [discriminate H|]). exact H.
Defined.


(** [eject-file --file src/login/page/Login.tsx]. *)
Lemma main_runs_selected_command_witness :
  main Z decimal string string SemVerModel.version SemVerModel.parse ansi_red
    (option string) (fun p => inr p) (fun _ _ _ => None) (fun _ _ => Some 0)
    (fun _ => true)
    ["node"; "keycloakify"; "eject-file"; "--file"; "src/login/page/Login.tsx"]
    {| selected := eject_file;
       argv := {| options := [("file", "src/login/page/Login.tsx")] |};
       ctx_of := {| projectDirPath := None; port := None; keycloakVersion := None;
                    realmJsonFilePath := None;
                    file := "src/login/page/Login.tsx" |} |}
    (initial_world Z string (option string))
  = (Done tt,
     {| optionsKeys := ["project"; "p"; "port"; "keycloak-version"; "import"; "file"];
        trace := [Import "./eject-file";
                  GetBuildContext None;
                  Command "./eject-file" None
                    (EjectFileOptions "src/login/page/Login.tsx")] |}).
Proof.
  apply (main_runs_selected_command Z decimal string string SemVerModel.version
           SemVerModel.parse ansi_red (option string) (fun p => inr p)
           (fun _ _ _ => None) (fun _ _ => Some 0) (fun _ => true)
           ["node"; "keycloakify"; "eject-file"; "--file"; "src/login/page/Login.tsx"]
           {| selected := eject_file;
              argv := {| options := [("file", "src/login/page/Login.tsx")] |};
              ctx_of := {| projectDirPath := None; port := None;
                           keycloakVersion := None; realmJsonFilePath := None;
                           file := "src/login/page/Login.tsx" |} |}
           None).
  - reflexivity.
  - simpl. intros x [<-|[]]. right. exists eject_file. simpl. auto 12.
  - discriminate.
  - reflexivity.
  - reflexivity.
Defined.

(** The registry against the same tokens in another order, one of them
    twice, on [--port 8085 -x]. *)
Lemma skip_membership_only_witness :
  fst (skip Z string string (option string)
         {| options := [("port", "8085"); ("x", "1")] |} built)
  = fst (skip Z string string (option string)
           {| options := [("port", "8085"); ("x", "1")] |}
           {| optionsKeys := ["file"; "import"; "keycloak-version"; "port"; "p";
                              "project"; "file"];
              trace := [] |})
  /\ trace Z string (option string)
       (snd (skip Z string string (option string)
               {| options := [("port", "8085"); ("x", "1")] |} built))
     = trace Z string (option string)
         (snd (skip Z string string (option string)
                 {| options := [("port", "8085"); ("x", "1")] |}
                 {| optionsKeys := ["file"; "import"; "keycloak-version"; "port";
                                    "p"; "project"; "file"];
                    trace := [] |})).
Proof.
  apply (skip_membership_only Z string string (option string)
           {| options := [("port", "8085"); ("x", "1")] |} built
           {| optionsKeys := ["file"; "import"; "keycloak-version"; "port"; "p";
                              "project"; "file"];
              trace := [] |}).
  - reflexivity.
  - intros k. simpl. split; intros H;
      repeat (destruct H as [H|H]; [subst k; auto 12|]); contradiction.
Defined.

(** The handler of [eject-file], its command rejecting: the handler itself
    writes nothing. *)
Lemma other_handlers_quiet_witness :
  stdout_of Z string (option string)
    (trace Z string (option string)
       (snd (handler Z decimal string SemVerModel.version SemVerModel.parse ansi_red
               (option string) (fun p => inr p) (fun _ _ _ => Some "boom")
               eject_file
               {| projectDirPath := None; port := None; keycloakVersion := None;
                  realmJsonFilePath := None; file := "src/x.tsx" |}
               built)))
  = []
  /\ stderr_count Z string (option string)
       (trace Z string (option string)
          (snd (handler Z decimal string SemVerModel.version SemVerModel.parse
                  ansi_red (option string) (fun p => inr p)
                  (fun _ _ _ => Some "boom") eject_file
                  {| projectDirPath := None; port := None; keycloakVersion := None;
                     realmJsonFilePath := None; file := "src/x.tsx" |}
                  built)))
     = 0%nat.
Proof.
  destruct (other_handlers_quiet Z decimal string SemVerModel.version
              SemVerModel.parse ansi_red (option string) (fun p => inr p)
              (fun _ _ _ => Some "boom") eject_file
              {| projectDirPath := None; port := None; keycloakVersion := None;
                 realmJsonFilePath := None; file := "src/x.tsx" |}
              built) as (_ & Hout & Herr & _).
  - discriminate.
  - split; [exact Hout | exact Herr].
Defined.
